(** * VIN decoder ([vin_decoder.py]): embedding and verified properties

    The development follows [class VINDecoder]: the two lookup tables, the
    compiled pattern, [validate_vin], [decode_vin], [_validate_check_digit],
    [_determine_vehicle_type], [get_forensic_summary] and
    [_assess_legal_relevance].

    Python values are modelled as the program has them:
    - a [str] is a sequence of Unicode code points, here [list N];
    - [len], slices and [startswith] are the list operations, and indexing
      [s[i]] raises [IndexError] out of range, kept as a [result];
    - a [dict] is a finite map ([gmap]) and [dict.get(k, d)] a lookup with a
      default;
    - the [logger] calls only write to the log and never change a returned
      value; they are left out. *)

From Stdlib Require Import ZArith NArith List Ascii String DecimalString Lia Bool.
From stdpp Require Import base option list gmap.

Local Open Scope N_scope.

(** ** Python strings *)

Module PyStr.

(** A Python [str]: its code points, in order. *)
Abbreviation str := (list N).

(** A string literal of the source (ASCII text). *)
Definition lit (s : string) : str :=
  map N_of_ascii (list_ascii_of_string s).

(** [str(n)] for a non-negative [int], as used by the f-string [{len(vin)}]. *)
Definition str_of_nat (n : nat) : str :=
  lit (NilZero.string_of_uint (Nat.to_uint n)).

(** [s.startswith(p)]. *)
Fixpoint startswith (s p : str) : bool :=
  match p, s with
  | [], _ => true
  | _ :: _, [] => false
  | a :: p', b :: s' => (a =? b) && startswith s' p'
  end.

(** [needle in hay] for strings: some suffix of [hay] starts with [needle]. *)
Fixpoint contains (needle hay : str) : bool :=
  startswith hay needle ||
  match hay with
  | [] => false
  | _ :: hay' => contains needle hay'
  end.

(** The uppercase mapping of [str.upper()]: every code point [c] with
    [chr(c).upper() != chr(c)], with the code points of [chr(c).upper()]
    (Unicode 14.0.0, the full case mapping: one code point may map to two or
    three). [str.upper()] maps each code point on its own, whatever its
    neighbours. *)
Definition upper_table : list (N * list N) := [
  (97, [65]); (98, [66]); (99, [67]); (100, [68]); (101, [69]);
  (102, [70]); (103, [71]); (104, [72]); (105, [73]); (106, [74]);
  (107, [75]); (108, [76]); (109, [77]); (110, [78]); (111, [79]);
  (112, [80]); (113, [81]); (114, [82]); (115, [83]); (116, [84]);
  (117, [85]); (118, [86]); (119, [87]); (120, [88]); (121, [89]);
  (122, [90]); (181, [924]); (223, [83; 83]); (224, [192]); (225, [193]);
  (226, [194]); (227, [195]); (228, [196]); (229, [197]); (230, [198]);
  (231, [199]); (232, [200]); (233, [201]); (234, [202]); (235, [203]);
  (236, [204]); (237, [205]); (238, [206]); (239, [207]); (240, [208]);
  (241, [209]); (242, [210]); (243, [211]); (244, [212]); (245, [213]);
  (246, [214]); (248, [216]); (249, [217]); (250, [218]); (251, [219]);
  (252, [220]); (253, [221]); (254, [222]); (255, [376]); (257, [256]);
  (259, [258]); (261, [260]); (263, [262]); (265, [264]); (267, [266]);
  (269, [268]); (271, [270]); (273, [272]); (275, [274]); (277, [276]);
  (279, [278]); (281, [280]); (283, [282]); (285, [284]); (287, [286]);
  (289, [288]); (291, [290]); (293, [292]); (295, [294]); (297, [296]);
  (299, [298]); (301, [300]); (303, [302]); (305, [73]); (307, [306]);
  (309, [308]); (311, [310]); (314, [313]); (316, [315]); (318, [317]);
  (320, [319]); (322, [321]); (324, [323]); (326, [325]); (328, [327]);
  (329, [700; 78]); (331, [330]); (333, [332]); (335, [334]); (337, [336]);
  (339, [338]); (341, [340]); (343, [342]); (345, [344]); (347, [346]);
  (349, [348]); (351, [350]); (353, [352]); (355, [354]); (357, [356]);
  (359, [358]); (361, [360]); (363, [362]); (365, [364]); (367, [366]);
  (369, [368]); (371, [370]); (373, [372]); (375, [374]); (378, [377]);
  (380, [379]); (382, [381]); (383, [83]); (384, [579]); (387, [386]);
  (389, [388]); (392, [391]); (396, [395]); (402, [401]); (405, [502]);
  (409, [408]); (410, [573]); (414, [544]); (417, [416]); (419, [418]);
  (421, [420]); (424, [423]); (429, [428]); (432, [431]); (436, [435]);
  (438, [437]); (441, [440]); (445, [444]); (447, [503]); (453, [452]);
  (454, [452]); (456, [455]); (457, [455]); (459, [458]); (460, [458]);
  (462, [461]); (464, [463]); (466, [465]); (468, [467]); (470, [469]);
  (472, [471]); (474, [473]); (476, [475]); (477, [398]); (479, [478]);
  (481, [480]); (483, [482]); (485, [484]); (487, [486]); (489, [488]);
  (491, [490]); (493, [492]); (495, [494]); (496, [74; 780]); (498, [497]);
  (499, [497]); (501, [500]); (505, [504]); (507, [506]); (509, [508]);
  (511, [510]); (513, [512]); (515, [514]); (517, [516]); (519, [518]);
  (521, [520]); (523, [522]); (525, [524]); (527, [526]); (529, [528]);
  (531, [530]); (533, [532]); (535, [534]); (537, [536]); (539, [538]);
  (541, [540]); (543, [542]); (547, [546]); (549, [548]); (551, [550]);
  (553, [552]); (555, [554]); (557, [556]); (559, [558]); (561, [560]);
  (563, [562]); (572, [571]); (575, [11390]); (576, [11391]); (578, [577]);
  (583, [582]); (585, [584]); (587, [586]); (589, [588]); (591, [590]);
  (592, [11375]); (593, [11373]); (594, [11376]); (595, [385]); (596, [390]);
  (598, [393]); (599, [394]); (601, [399]); (603, [400]); (604, [42923]);
  (608, [403]); (609, [42924]); (611, [404]); (613, [42893]); (614, [42922]);
  (616, [407]); (617, [406]); (618, [42926]); (619, [11362]); (620, [42925]);
  (623, [412]); (625, [11374]); (626, [413]); (629, [415]); (637, [11364]);
  (640, [422]); (642, [42949]); (643, [425]); (647, [42929]); (648, [430]);
  (649, [580]); (650, [433]); (651, [434]); (652, [581]); (658, [439]);
  (669, [42930]); (670, [42928]); (837, [921]); (881, [880]); (883, [882]);
  (887, [886]); (891, [1021]); (892, [1022]); (893, [1023]); (912, [921; 776; 769]);
  (940, [902]); (941, [904]); (942, [905]); (943, [906]); (944, [933; 776; 769]);
  (945, [913]); (946, [914]); (947, [915]); (948, [916]); (949, [917]);
  (950, [918]); (951, [919]); (952, [920]); (953, [921]); (954, [922]);
  (955, [923]); (956, [924]); (957, [925]); (958, [926]); (959, [927]);
  (960, [928]); (961, [929]); (962, [931]); (963, [931]); (964, [932]);
  (965, [933]); (966, [934]); (967, [935]); (968, [936]); (969, [937]);
  (970, [938]); (971, [939]); (972, [908]); (973, [910]); (974, [911]);
  (976, [914]); (977, [920]); (981, [934]); (982, [928]); (983, [975]);
  (985, [984]); (987, [986]); (989, [988]); (991, [990]); (993, [992]);
  (995, [994]); (997, [996]); (999, [998]); (1001, [1000]); (1003, [1002]);
  (1005, [1004]); (1007, [1006]); (1008, [922]); (1009, [929]); (1010, [1017]);
  (1011, [895]); (1013, [917]); (1016, [1015]); (1019, [1018]); (1072, [1040]);
  (1073, [1041]); (1074, [1042]); (1075, [1043]); (1076, [1044]); (1077, [1045]);
  (1078, [1046]); (1079, [1047]); (1080, [1048]); (1081, [1049]); (1082, [1050]);
  (1083, [1051]); (1084, [1052]); (1085, [1053]); (1086, [1054]); (1087, [1055]);
  (1088, [1056]); (1089, [1057]); (1090, [1058]); (1091, [1059]); (1092, [1060]);
  (1093, [1061]); (1094, [1062]); (1095, [1063]); (1096, [1064]); (1097, [1065]);
  (1098, [1066]); (1099, [1067]); (1100, [1068]); (1101, [1069]); (1102, [1070]);
  (1103, [1071]); (1104, [1024]); (1105, [1025]); (1106, [1026]); (1107, [1027]);
  (1108, [1028]); (1109, [1029]); (1110, [1030]); (1111, [1031]); (1112, [1032]);
  (1113, [1033]); (1114, [1034]); (1115, [1035]); (1116, [1036]); (1117, [1037]);
  (1118, [1038]); (1119, [1039]); (1121, [1120]); (1123, [1122]); (1125, [1124]);
  (1127, [1126]); (1129, [1128]); (1131, [1130]); (1133, [1132]); (1135, [1134]);
  (1137, [1136]); (1139, [1138]); (1141, [1140]); (1143, [1142]); (1145, [1144]);
  (1147, [1146]); (1149, [1148]); (1151, [1150]); (1153, [1152]); (1163, [1162]);
  (1165, [1164]); (1167, [1166]); (1169, [1168]); (1171, [1170]); (1173, [1172]);
  (1175, [1174]); (1177, [1176]); (1179, [1178]); (1181, [1180]); (1183, [1182]);
  (1185, [1184]); (1187, [1186]); (1189, [1188]); (1191, [1190]); (1193, [1192]);
  (1195, [1194]); (1197, [1196]); (1199, [1198]); (1201, [1200]); (1203, [1202]);
  (1205, [1204]); (1207, [1206]); (1209, [1208]); (1211, [1210]); (1213, [1212]);
  (1215, [1214]); (1218, [1217]); (1220, [1219]); (1222, [1221]); (1224, [1223]);
  (1226, [1225]); (1228, [1227]); (1230, [1229]); (1231, [1216]); (1233, [1232]);
  (1235, [1234]); (1237, [1236]); (1239, [1238]); (1241, [1240]); (1243, [1242]);
  (1245, [1244]); (1247, [1246]); (1249, [1248]); (1251, [1250]); (1253, [1252]);
  (1255, [1254]); (1257, [1256]); (1259, [1258]); (1261, [1260]); (1263, [1262]);
  (1265, [1264]); (1267, [1266]); (1269, [1268]); (1271, [1270]); (1273, [1272]);
  (1275, [1274]); (1277, [1276]); (1279, [1278]); (1281, [1280]); (1283, [1282]);
  (1285, [1284]); (1287, [1286]); (1289, [1288]); (1291, [1290]); (1293, [1292]);
  (1295, [1294]); (1297, [1296]); (1299, [1298]); (1301, [1300]); (1303, [1302]);
  (1305, [1304]); (1307, [1306]); (1309, [1308]); (1311, [1310]); (1313, [1312]);
  (1315, [1314]); (1317, [1316]); (1319, [1318]); (1321, [1320]); (1323, [1322]);
  (1325, [1324]); (1327, [1326]); (1377, [1329]); (1378, [1330]); (1379, [1331]);
  (1380, [1332]); (1381, [1333]); (1382, [1334]); (1383, [1335]); (1384, [1336]);
  (1385, [1337]); (1386, [1338]); (1387, [1339]); (1388, [1340]); (1389, [1341]);
  (1390, [1342]); (1391, [1343]); (1392, [1344]); (1393, [1345]); (1394, [1346]);
  (1395, [1347]); (1396, [1348]); (1397, [1349]); (1398, [1350]); (1399, [1351]);
  (1400, [1352]); (1401, [1353]); (1402, [1354]); (1403, [1355]); (1404, [1356]);
  (1405, [1357]); (1406, [1358]); (1407, [1359]); (1408, [1360]); (1409, [1361]);
  (1410, [1362]); (1411, [1363]); (1412, [1364]); (1413, [1365]); (1414, [1366]);
  (1415, [1333; 1362]); (4304, [7312]); (4305, [7313]); (4306, [7314]); (4307, [7315]);
  (4308, [7316]); (4309, [7317]); (4310, [7318]); (4311, [7319]); (4312, [7320]);
  (4313, [7321]); (4314, [7322]); (4315, [7323]); (4316, [7324]); (4317, [7325]);
  (4318, [7326]); (4319, [7327]); (4320, [7328]); (4321, [7329]); (4322, [7330]);
  (4323, [7331]); (4324, [7332]); (4325, [7333]); (4326, [7334]); (4327, [7335]);
  (4328, [7336]); (4329, [7337]); (4330, [7338]); (4331, [7339]); (4332, [7340]);
  (4333, [7341]); (4334, [7342]); (4335, [7343]); (4336, [7344]); (4337, [7345]);
  (4338, [7346]); (4339, [7347]); (4340, [7348]); (4341, [7349]); (4342, [7350]);
  (4343, [7351]); (4344, [7352]); (4345, [7353]); (4346, [7354]); (4349, [7357]);
  (4350, [7358]); (4351, [7359]); (5112, [5104]); (5113, [5105]); (5114, [5106]);
  (5115, [5107]); (5116, [5108]); (5117, [5109]); (7296, [1042]); (7297, [1044]);
  (7298, [1054]); (7299, [1057]); (7300, [1058]); (7301, [1058]); (7302, [1066]);
  (7303, [1122]); (7304, [42570]); (7545, [42877]); (7549, [11363]); (7566, [42950]);
  (7681, [7680]); (7683, [7682]); (7685, [7684]); (7687, [7686]); (7689, [7688]);
  (7691, [7690]); (7693, [7692]); (7695, [7694]); (7697, [7696]); (7699, [7698]);
  (7701, [7700]); (7703, [7702]); (7705, [7704]); (7707, [7706]); (7709, [7708]);
  (7711, [7710]); (7713, [7712]); (7715, [7714]); (7717, [7716]); (7719, [7718]);
  (7721, [7720]); (7723, [7722]); (7725, [7724]); (7727, [7726]); (7729, [7728]);
  (7731, [7730]); (7733, [7732]); (7735, [7734]); (7737, [7736]); (7739, [7738]);
  (7741, [7740]); (7743, [7742]); (7745, [7744]); (7747, [7746]); (7749, [7748]);
  (7751, [7750]); (7753, [7752]); (7755, [7754]); (7757, [7756]); (7759, [7758]);
  (7761, [7760]); (7763, [7762]); (7765, [7764]); (7767, [7766]); (7769, [7768]);
  (7771, [7770]); (7773, [7772]); (7775, [7774]); (7777, [7776]); (7779, [7778]);
  (7781, [7780]); (7783, [7782]); (7785, [7784]); (7787, [7786]); (7789, [7788]);
  (7791, [7790]); (7793, [7792]); (7795, [7794]); (7797, [7796]); (7799, [7798]);
  (7801, [7800]); (7803, [7802]); (7805, [7804]); (7807, [7806]); (7809, [7808]);
  (7811, [7810]); (7813, [7812]); (7815, [7814]); (7817, [7816]); (7819, [7818]);
  (7821, [7820]); (7823, [7822]); (7825, [7824]); (7827, [7826]); (7829, [7828]);
  (7830, [72; 817]); (7831, [84; 776]); (7832, [87; 778]); (7833, [89; 778]); (7834, [65; 702]);
  (7835, [7776]); (7841, [7840]); (7843, [7842]); (7845, [7844]); (7847, [7846]);
  (7849, [7848]); (7851, [7850]); (7853, [7852]); (7855, [7854]); (7857, [7856]);
  (7859, [7858]); (7861, [7860]); (7863, [7862]); (7865, [7864]); (7867, [7866]);
  (7869, [7868]); (7871, [7870]); (7873, [7872]); (7875, [7874]); (7877, [7876]);
  (7879, [7878]); (7881, [7880]); (7883, [7882]); (7885, [7884]); (7887, [7886]);
  (7889, [7888]); (7891, [7890]); (7893, [7892]); (7895, [7894]); (7897, [7896]);
  (7899, [7898]); (7901, [7900]); (7903, [7902]); (7905, [7904]); (7907, [7906]);
  (7909, [7908]); (7911, [7910]); (7913, [7912]); (7915, [7914]); (7917, [7916]);
  (7919, [7918]); (7921, [7920]); (7923, [7922]); (7925, [7924]); (7927, [7926]);
  (7929, [7928]); (7931, [7930]); (7933, [7932]); (7935, [7934]); (7936, [7944]);
  (7937, [7945]); (7938, [7946]); (7939, [7947]); (7940, [7948]); (7941, [7949]);
  (7942, [7950]); (7943, [7951]); (7952, [7960]); (7953, [7961]); (7954, [7962]);
  (7955, [7963]); (7956, [7964]); (7957, [7965]); (7968, [7976]); (7969, [7977]);
  (7970, [7978]); (7971, [7979]); (7972, [7980]); (7973, [7981]); (7974, [7982]);
  (7975, [7983]); (7984, [7992]); (7985, [7993]); (7986, [7994]); (7987, [7995]);
  (7988, [7996]); (7989, [7997]); (7990, [7998]); (7991, [7999]); (8000, [8008]);
  (8001, [8009]); (8002, [8010]); (8003, [8011]); (8004, [8012]); (8005, [8013]);
  (8016, [933; 787]); (8017, [8025]); (8018, [933; 787; 768]); (8019, [8027]); (8020, [933; 787; 769]);
  (8021, [8029]); (8022, [933; 787; 834]); (8023, [8031]); (8032, [8040]); (8033, [8041]);
  (8034, [8042]); (8035, [8043]); (8036, [8044]); (8037, [8045]); (8038, [8046]);
  (8039, [8047]); (8048, [8122]); (8049, [8123]); (8050, [8136]); (8051, [8137]);
  (8052, [8138]); (8053, [8139]); (8054, [8154]); (8055, [8155]); (8056, [8184]);
  (8057, [8185]); (8058, [8170]); (8059, [8171]); (8060, [8186]); (8061, [8187]);
  (8064, [7944; 921]); (8065, [7945; 921]); (8066, [7946; 921]); (8067, [7947; 921]); (8068, [7948; 921]);
  (8069, [7949; 921]); (8070, [7950; 921]); (8071, [7951; 921]); (8072, [7944; 921]); (8073, [7945; 921]);
  (8074, [7946; 921]); (8075, [7947; 921]); (8076, [7948; 921]); (8077, [7949; 921]); (8078, [7950; 921]);
  (8079, [7951; 921]); (8080, [7976; 921]); (8081, [7977; 921]); (8082, [7978; 921]); (8083, [7979; 921]);
  (8084, [7980; 921]); (8085, [7981; 921]); (8086, [7982; 921]); (8087, [7983; 921]); (8088, [7976; 921]);
  (8089, [7977; 921]); (8090, [7978; 921]); (8091, [7979; 921]); (8092, [7980; 921]); (8093, [7981; 921]);
  (8094, [7982; 921]); (8095, [7983; 921]); (8096, [8040; 921]); (8097, [8041; 921]); (8098, [8042; 921]);
  (8099, [8043; 921]); (8100, [8044; 921]); (8101, [8045; 921]); (8102, [8046; 921]); (8103, [8047; 921]);
  (8104, [8040; 921]); (8105, [8041; 921]); (8106, [8042; 921]); (8107, [8043; 921]); (8108, [8044; 921]);
  (8109, [8045; 921]); (8110, [8046; 921]); (8111, [8047; 921]); (8112, [8120]); (8113, [8121]);
  (8114, [8122; 921]); (8115, [913; 921]); (8116, [902; 921]); (8118, [913; 834]); (8119, [913; 834; 921]);
  (8124, [913; 921]); (8126, [921]); (8130, [8138; 921]); (8131, [919; 921]); (8132, [905; 921]);
  (8134, [919; 834]); (8135, [919; 834; 921]); (8140, [919; 921]); (8144, [8152]); (8145, [8153]);
  (8146, [921; 776; 768]); (8147, [921; 776; 769]); (8150, [921; 834]); (8151, [921; 776; 834]); (8160, [8168]);
  (8161, [8169]); (8162, [933; 776; 768]); (8163, [933; 776; 769]); (8164, [929; 787]); (8165, [8172]);
  (8166, [933; 834]); (8167, [933; 776; 834]); (8178, [8186; 921]); (8179, [937; 921]); (8180, [911; 921]);
  (8182, [937; 834]); (8183, [937; 834; 921]); (8188, [937; 921]); (8526, [8498]); (8560, [8544]);
  (8561, [8545]); (8562, [8546]); (8563, [8547]); (8564, [8548]); (8565, [8549]);
  (8566, [8550]); (8567, [8551]); (8568, [8552]); (8569, [8553]); (8570, [8554]);
  (8571, [8555]); (8572, [8556]); (8573, [8557]); (8574, [8558]); (8575, [8559]);
  (8580, [8579]); (9424, [9398]); (9425, [9399]); (9426, [9400]); (9427, [9401]);
  (9428, [9402]); (9429, [9403]); (9430, [9404]); (9431, [9405]); (9432, [9406]);
  (9433, [9407]); (9434, [9408]); (9435, [9409]); (9436, [9410]); (9437, [9411]);
  (9438, [9412]); (9439, [9413]); (9440, [9414]); (9441, [9415]); (9442, [9416]);
  (9443, [9417]); (9444, [9418]); (9445, [9419]); (9446, [9420]); (9447, [9421]);
  (9448, [9422]); (9449, [9423]); (11312, [11264]); (11313, [11265]); (11314, [11266]);
  (11315, [11267]); (11316, [11268]); (11317, [11269]); (11318, [11270]); (11319, [11271]);
  (11320, [11272]); (11321, [11273]); (11322, [11274]); (11323, [11275]); (11324, [11276]);
  (11325, [11277]); (11326, [11278]); (11327, [11279]); (11328, [11280]); (11329, [11281]);
  (11330, [11282]); (11331, [11283]); (11332, [11284]); (11333, [11285]); (11334, [11286]);
  (11335, [11287]); (11336, [11288]); (11337, [11289]); (11338, [11290]); (11339, [11291]);
  (11340, [11292]); (11341, [11293]); (11342, [11294]); (11343, [11295]); (11344, [11296]);
  (11345, [11297]); (11346, [11298]); (11347, [11299]); (11348, [11300]); (11349, [11301]);
  (11350, [11302]); (11351, [11303]); (11352, [11304]); (11353, [11305]); (11354, [11306]);
  (11355, [11307]); (11356, [11308]); (11357, [11309]); (11358, [11310]); (11359, [11311]);
  (11361, [11360]); (11365, [570]); (11366, [574]); (11368, [11367]); (11370, [11369]);
  (11372, [11371]); (11379, [11378]); (11382, [11381]); (11393, [11392]); (11395, [11394]);
  (11397, [11396]); (11399, [11398]); (11401, [11400]); (11403, [11402]); (11405, [11404]);
  (11407, [11406]); (11409, [11408]); (11411, [11410]); (11413, [11412]); (11415, [11414]);
  (11417, [11416]); (11419, [11418]); (11421, [11420]); (11423, [11422]); (11425, [11424]);
  (11427, [11426]); (11429, [11428]); (11431, [11430]); (11433, [11432]); (11435, [11434]);
  (11437, [11436]); (11439, [11438]); (11441, [11440]); (11443, [11442]); (11445, [11444]);
  (11447, [11446]); (11449, [11448]); (11451, [11450]); (11453, [11452]); (11455, [11454]);
  (11457, [11456]); (11459, [11458]); (11461, [11460]); (11463, [11462]); (11465, [11464]);
  (11467, [11466]); (11469, [11468]); (11471, [11470]); (11473, [11472]); (11475, [11474]);
  (11477, [11476]); (11479, [11478]); (11481, [11480]); (11483, [11482]); (11485, [11484]);
  (11487, [11486]); (11489, [11488]); (11491, [11490]); (11500, [11499]); (11502, [11501]);
  (11507, [11506]); (11520, [4256]); (11521, [4257]); (11522, [4258]); (11523, [4259]);
  (11524, [4260]); (11525, [4261]); (11526, [4262]); (11527, [4263]); (11528, [4264]);
  (11529, [4265]); (11530, [4266]); (11531, [4267]); (11532, [4268]); (11533, [4269]);
  (11534, [4270]); (11535, [4271]); (11536, [4272]); (11537, [4273]); (11538, [4274]);
  (11539, [4275]); (11540, [4276]); (11541, [4277]); (11542, [4278]); (11543, [4279]);
  (11544, [4280]); (11545, [4281]); (11546, [4282]); (11547, [4283]); (11548, [4284]);
  (11549, [4285]); (11550, [4286]); (11551, [4287]); (11552, [4288]); (11553, [4289]);
  (11554, [4290]); (11555, [4291]); (11556, [4292]); (11557, [4293]); (11559, [4295]);
  (11565, [4301]); (42561, [42560]); (42563, [42562]); (42565, [42564]); (42567, [42566]);
  (42569, [42568]); (42571, [42570]); (42573, [42572]); (42575, [42574]); (42577, [42576]);
  (42579, [42578]); (42581, [42580]); (42583, [42582]); (42585, [42584]); (42587, [42586]);
  (42589, [42588]); (42591, [42590]); (42593, [42592]); (42595, [42594]); (42597, [42596]);
  (42599, [42598]); (42601, [42600]); (42603, [42602]); (42605, [42604]); (42625, [42624]);
  (42627, [42626]); (42629, [42628]); (42631, [42630]); (42633, [42632]); (42635, [42634]);
  (42637, [42636]); (42639, [42638]); (42641, [42640]); (42643, [42642]); (42645, [42644]);
  (42647, [42646]); (42649, [42648]); (42651, [42650]); (42787, [42786]); (42789, [42788]);
  (42791, [42790]); (42793, [42792]); (42795, [42794]); (42797, [42796]); (42799, [42798]);
  (42803, [42802]); (42805, [42804]); (42807, [42806]); (42809, [42808]); (42811, [42810]);
  (42813, [42812]); (42815, [42814]); (42817, [42816]); (42819, [42818]); (42821, [42820]);
  (42823, [42822]); (42825, [42824]); (42827, [42826]); (42829, [42828]); (42831, [42830]);
  (42833, [42832]); (42835, [42834]); (42837, [42836]); (42839, [42838]); (42841, [42840]);
  (42843, [42842]); (42845, [42844]); (42847, [42846]); (42849, [42848]); (42851, [42850]);
  (42853, [42852]); (42855, [42854]); (42857, [42856]); (42859, [42858]); (42861, [42860]);
  (42863, [42862]); (42874, [42873]); (42876, [42875]); (42879, [42878]); (42881, [42880]);
  (42883, [42882]); (42885, [42884]); (42887, [42886]); (42892, [42891]); (42897, [42896]);
  (42899, [42898]); (42900, [42948]); (42903, [42902]); (42905, [42904]); (42907, [42906]);
  (42909, [42908]); (42911, [42910]); (42913, [42912]); (42915, [42914]); (42917, [42916]);
  (42919, [42918]); (42921, [42920]); (42933, [42932]); (42935, [42934]); (42937, [42936]);
  (42939, [42938]); (42941, [42940]); (42943, [42942]); (42945, [42944]); (42947, [42946]);
  (42952, [42951]); (42954, [42953]); (42961, [42960]); (42967, [42966]); (42969, [42968]);
  (42998, [42997]); (43859, [42931]); (43888, [5024]); (43889, [5025]); (43890, [5026]);
  (43891, [5027]); (43892, [5028]); (43893, [5029]); (43894, [5030]); (43895, [5031]);
  (43896, [5032]); (43897, [5033]); (43898, [5034]); (43899, [5035]); (43900, [5036]);
  (43901, [5037]); (43902, [5038]); (43903, [5039]); (43904, [5040]); (43905, [5041]);
  (43906, [5042]); (43907, [5043]); (43908, [5044]); (43909, [5045]); (43910, [5046]);
  (43911, [5047]); (43912, [5048]); (43913, [5049]); (43914, [5050]); (43915, [5051]);
  (43916, [5052]); (43917, [5053]); (43918, [5054]); (43919, [5055]); (43920, [5056]);
  (43921, [5057]); (43922, [5058]); (43923, [5059]); (43924, [5060]); (43925, [5061]);
  (43926, [5062]); (43927, [5063]); (43928, [5064]); (43929, [5065]); (43930, [5066]);
  (43931, [5067]); (43932, [5068]); (43933, [5069]); (43934, [5070]); (43935, [5071]);
  (43936, [5072]); (43937, [5073]); (43938, [5074]); (43939, [5075]); (43940, [5076]);
  (43941, [5077]); (43942, [5078]); (43943, [5079]); (43944, [5080]); (43945, [5081]);
  (43946, [5082]); (43947, [5083]); (43948, [5084]); (43949, [5085]); (43950, [5086]);
  (43951, [5087]); (43952, [5088]); (43953, [5089]); (43954, [5090]); (43955, [5091]);
  (43956, [5092]); (43957, [5093]); (43958, [5094]); (43959, [5095]); (43960, [5096]);
  (43961, [5097]); (43962, [5098]); (43963, [5099]); (43964, [5100]); (43965, [5101]);
  (43966, [5102]); (43967, [5103]); (64256, [70; 70]); (64257, [70; 73]); (64258, [70; 76]);
  (64259, [70; 70; 73]); (64260, [70; 70; 76]); (64261, [83; 84]); (64262, [83; 84]); (64275, [1348; 1350]);
  (64276, [1348; 1333]); (64277, [1348; 1339]); (64278, [1358; 1350]); (64279, [1348; 1341]); (65345, [65313]);
  (65346, [65314]); (65347, [65315]); (65348, [65316]); (65349, [65317]); (65350, [65318]);
  (65351, [65319]); (65352, [65320]); (65353, [65321]); (65354, [65322]); (65355, [65323]);
  (65356, [65324]); (65357, [65325]); (65358, [65326]); (65359, [65327]); (65360, [65328]);
  (65361, [65329]); (65362, [65330]); (65363, [65331]); (65364, [65332]); (65365, [65333]);
  (65366, [65334]); (65367, [65335]); (65368, [65336]); (65369, [65337]); (65370, [65338]);
  (66600, [66560]); (66601, [66561]); (66602, [66562]); (66603, [66563]); (66604, [66564]);
  (66605, [66565]); (66606, [66566]); (66607, [66567]); (66608, [66568]); (66609, [66569]);
  (66610, [66570]); (66611, [66571]); (66612, [66572]); (66613, [66573]); (66614, [66574]);
  (66615, [66575]); (66616, [66576]); (66617, [66577]); (66618, [66578]); (66619, [66579]);
  (66620, [66580]); (66621, [66581]); (66622, [66582]); (66623, [66583]); (66624, [66584]);
  (66625, [66585]); (66626, [66586]); (66627, [66587]); (66628, [66588]); (66629, [66589]);
  (66630, [66590]); (66631, [66591]); (66632, [66592]); (66633, [66593]); (66634, [66594]);
  (66635, [66595]); (66636, [66596]); (66637, [66597]); (66638, [66598]); (66639, [66599]);
  (66776, [66736]); (66777, [66737]); (66778, [66738]); (66779, [66739]); (66780, [66740]);
  (66781, [66741]); (66782, [66742]); (66783, [66743]); (66784, [66744]); (66785, [66745]);
  (66786, [66746]); (66787, [66747]); (66788, [66748]); (66789, [66749]); (66790, [66750]);
  (66791, [66751]); (66792, [66752]); (66793, [66753]); (66794, [66754]); (66795, [66755]);
  (66796, [66756]); (66797, [66757]); (66798, [66758]); (66799, [66759]); (66800, [66760]);
  (66801, [66761]); (66802, [66762]); (66803, [66763]); (66804, [66764]); (66805, [66765]);
  (66806, [66766]); (66807, [66767]); (66808, [66768]); (66809, [66769]); (66810, [66770]);
  (66811, [66771]); (66967, [66928]); (66968, [66929]); (66969, [66930]); (66970, [66931]);
  (66971, [66932]); (66972, [66933]); (66973, [66934]); (66974, [66935]); (66975, [66936]);
  (66976, [66937]); (66977, [66938]); (66979, [66940]); (66980, [66941]); (66981, [66942]);
  (66982, [66943]); (66983, [66944]); (66984, [66945]); (66985, [66946]); (66986, [66947]);
  (66987, [66948]); (66988, [66949]); (66989, [66950]); (66990, [66951]); (66991, [66952]);
  (66992, [66953]); (66993, [66954]); (66995, [66956]); (66996, [66957]); (66997, [66958]);
  (66998, [66959]); (66999, [66960]); (67000, [66961]); (67001, [66962]); (67003, [66964]);
  (67004, [66965]); (68800, [68736]); (68801, [68737]); (68802, [68738]); (68803, [68739]);
  (68804, [68740]); (68805, [68741]); (68806, [68742]); (68807, [68743]); (68808, [68744]);
  (68809, [68745]); (68810, [68746]); (68811, [68747]); (68812, [68748]); (68813, [68749]);
  (68814, [68750]); (68815, [68751]); (68816, [68752]); (68817, [68753]); (68818, [68754]);
  (68819, [68755]); (68820, [68756]); (68821, [68757]); (68822, [68758]); (68823, [68759]);
  (68824, [68760]); (68825, [68761]); (68826, [68762]); (68827, [68763]); (68828, [68764]);
  (68829, [68765]); (68830, [68766]); (68831, [68767]); (68832, [68768]); (68833, [68769]);
  (68834, [68770]); (68835, [68771]); (68836, [68772]); (68837, [68773]); (68838, [68774]);
  (68839, [68775]); (68840, [68776]); (68841, [68777]); (68842, [68778]); (68843, [68779]);
  (68844, [68780]); (68845, [68781]); (68846, [68782]); (68847, [68783]); (68848, [68784]);
  (68849, [68785]); (68850, [68786]); (71872, [71840]); (71873, [71841]); (71874, [71842]);
  (71875, [71843]); (71876, [71844]); (71877, [71845]); (71878, [71846]); (71879, [71847]);
  (71880, [71848]); (71881, [71849]); (71882, [71850]); (71883, [71851]); (71884, [71852]);
  (71885, [71853]); (71886, [71854]); (71887, [71855]); (71888, [71856]); (71889, [71857]);
  (71890, [71858]); (71891, [71859]); (71892, [71860]); (71893, [71861]); (71894, [71862]);
  (71895, [71863]); (71896, [71864]); (71897, [71865]); (71898, [71866]); (71899, [71867]);
  (71900, [71868]); (71901, [71869]); (71902, [71870]); (71903, [71871]); (93792, [93760]);
  (93793, [93761]); (93794, [93762]); (93795, [93763]); (93796, [93764]); (93797, [93765]);
  (93798, [93766]); (93799, [93767]); (93800, [93768]); (93801, [93769]); (93802, [93770]);
  (93803, [93771]); (93804, [93772]); (93805, [93773]); (93806, [93774]); (93807, [93775]);
  (93808, [93776]); (93809, [93777]); (93810, [93778]); (93811, [93779]); (93812, [93780]);
  (93813, [93781]); (93814, [93782]); (93815, [93783]); (93816, [93784]); (93817, [93785]);
  (93818, [93786]); (93819, [93787]); (93820, [93788]); (93821, [93789]); (93822, [93790]);
  (93823, [93791]); (125218, [125184]); (125219, [125185]); (125220, [125186]); (125221, [125187]);
  (125222, [125188]); (125223, [125189]); (125224, [125190]); (125225, [125191]); (125226, [125192]);
  (125227, [125193]); (125228, [125194]); (125229, [125195]); (125230, [125196]); (125231, [125197]);
  (125232, [125198]); (125233, [125199]); (125234, [125200]); (125235, [125201]); (125236, [125202]);
  (125237, [125203]); (125238, [125204]); (125239, [125205]); (125240, [125206]); (125241, [125207]);
  (125242, [125208]); (125243, [125209]); (125244, [125210]); (125245, [125211]); (125246, [125212]);
  (125247, [125213]); (125248, [125214]); (125249, [125215]); (125250, [125216]); (125251, [125217])
].

Fixpoint table_get (c : N) (t : list (N * list N)) : option (list N) :=
  match t with
  | [] => None
  | (k, v) :: t' => if k =? c then Some v else table_get c t'
  end.

(** [chr(c).upper()]. *)
Definition upper_char (c : N) : str :=
  default [c] (table_get c upper_table).

(** [s.upper()]. *)
Definition upper (s : str) : str := flat_map upper_char s.

End PyStr.

Import PyStr.

(** ** Exceptions *)

(** The only exception the decoder's own code can raise on a [str] input. *)
Inductive exn : Type := IndexError.

Inductive result (A : Type) : Type :=
| Ok (a : A)
| Raise (e : exn).

Arguments Ok {A} a.
Arguments Raise {A} e.

Definition bind {A B : Type} (r : result A) (k : A -> result B) : result B :=
  match r with
  | Ok a => k a
  | Raise e => Raise e
  end.

Notation "x <- r ;; k" := (bind r (fun x => k))
  (at level 100, r at next level, right associativity).

(** [s[i]] for a non-negative constant [i]: the one-character string at
    index [i], or [IndexError]. *)
Definition index (s : str) (i : nat) : result str :=
  match s !! i with
  | Some c => Ok [c]
  | None => Raise IndexError
  end.

(** ** The decoder *)

Module VINDecoder.

(** [@dataclass class VINInfo]. *)
Record VINInfo : Type := mkVINInfo {
  vin : str;
  manufacturer : str;
  model_year : Z;
  plant_code : str;
  vehicle_type : str;
  is_valid : bool;
  errors : list str
}.

(** [MANUFACTURERS]. *)
Definition MANUFACTURERS : gmap str str :=
  list_to_map [
    (lit "KM8", lit "Hyundai Motor Company");
    (lit "1G1", lit "General Motors");
    (lit "JHM", lit "Honda");
    (lit "WBA", lit "BMW")
  ].

(** [MODEL_YEARS]. *)
Definition MODEL_YEARS : gmap str Z :=
  list_to_map [
    (lit "L", 2020%Z); (lit "M", 2021%Z); (lit "N", 2022%Z);
    (lit "P", 2023%Z); (lit "R", 2024%Z); (lit "S", 2025%Z)
  ].

(** The character class [[A-HJ-NPR-Z0-9]] of [vin_pattern]. *)
Definition char_class (c : N) : bool :=
  (65 <=? c) && (c <=? 72)      (* A-H *)
  || (74 <=? c) && (c <=? 78)   (* J-N *)
  || (c =? 80)                  (* P *)
  || (82 <=? c) && (c <=? 90)   (* R-Z *)
  || (48 <=? c) && (c <=? 57).  (* 0-9 *)

(** [[A-HJ-NPR-Z0-9]{n}] from the start of [s]: the rest of the subject
    after exactly [n] characters of the class, if there are that many. *)
Fixpoint match_repeat (n : nat) (s : str) : option str :=
  match n with
  | O => Some s
  | S n' =>
      match s with
      | c :: s' => if char_class c then match_repeat n' s' else None
      | [] => None
      end
  end.

(** [$] (no [re.MULTILINE]): at the end of the subject, or just before a
    newline that is its last character. *)
Definition at_dollar (rest : str) : bool :=
  match rest with
  | [] => true
  | [c] => c =? 10
  | _ => false
  end.

(** [self.vin_pattern.match(s)] is not [None], for
    [vin_pattern = re.compile(r'^[A-HJ-NPR-Z0-9]{17}$')]. *)
Definition vin_pattern_match (s : str) : bool :=
  match match_repeat 17 s with
  | Some rest => at_dollar rest
  | None => false
  end.

(** [_validate_check_digit]: the placeholder of the source. *)
Definition _validate_check_digit (vin : str) : bool := true.

(** [validate_vin]: [(is_valid, error_list)]. *)
Definition validate_vin (vin : str) : bool * list str :=
  let errors : list str := [] in
  match vin with
  | [] => (false, errors ++ [lit "VIN cannot be empty"])
  | _ :: _ =>
      let errors :=
        if negb (Nat.eqb (length vin) 17)
        then errors ++ [lit "VIN must be 17 characters, got " ++ str_of_nat (length vin)]
        else errors in
      let errors :=
        if negb (vin_pattern_match (upper vin))
        then errors ++ [lit "VIN contains invalid characters (I, O, Q not allowed)"]
        else errors in
      let errors :=
        if Nat.eqb (length vin) 17 && negb (_validate_check_digit vin)
        then errors ++ [lit "Invalid VIN check digit"]
        else errors in
      (Nat.eqb (length errors) 0, errors)
  end.

(** [_determine_vehicle_type]. *)
Definition _determine_vehicle_type (vin : str) : str :=
  let descriptor := take 5 (drop 3 vin) in
  if startswith vin (lit "KM8R54HE") then lit "Palisade SUV"
  else if startswith vin (lit "KM8") then lit "Hyundai Vehicle"
  else lit "Unknown Vehicle Type".

(** [decode_vin]. *)
Definition decode_vin (vin : str) : result VINInfo :=
  let '(is_valid, errors) := validate_vin vin in
  if negb is_valid then
    Ok (mkVINInfo vin (lit "Unknown") 0 (lit "") (lit "") false errors)
  else
    let vin := upper vin in
    let wmi := take 3 vin in
    year_code <- index vin 9 ;;
    plant_code <- index vin 10 ;;
    let manufacturer :=
      default (lit "Unknown (" ++ wmi ++ lit ")") (MANUFACTURERS !! wmi) in
    let model_year := default 0%Z (MODEL_YEARS !! year_code) in
    let errors :=
      if (model_year =? 0)%Z
      then errors ++ [lit "Unknown model year code: " ++ year_code]
      else errors in
    let vehicle_type := _determine_vehicle_type vin in
    Ok (mkVINInfo vin manufacturer model_year plant_code vehicle_type true errors).

(** [_assess_legal_relevance]. *)
Definition _assess_legal_relevance (vin_info : VINInfo) : gmap str str :=
  let relevance : gmap str str := ∅ in
  if contains (lit "Palisade") (vehicle_type vin_info) then
    let relevance :=
      <[lit "known_issues" :=
          lit "Oil consumption defects documented in class action suits"]> relevance in
    let relevance :=
      <[lit "warranty_status" :=
          lit "10-year powertrain warranty applicable"]> relevance in
    let relevance :=
      <[lit "recall_potential" :=
          lit "Check NHTSA database for active recalls"]> relevance in
    relevance
  else relevance.

(** The [forensic_notes] entry of the summary. *)
Record ForensicNotes : Type := mkForensicNotes {
  wmi_code : str;
  notes_plant_code : str;
  serial_number : str
}.

(** The dictionary returned by [get_forensic_summary]: its keys are fixed,
    so it is a record; [legal_relevance] stays a dictionary. *)
Record ForensicSummary : Type := mkForensicSummary {
  summary_vin : str;
  summary_manufacturer : str;
  summary_model_year : Z;
  summary_vehicle_type : str;
  validation_status : str;
  forensic_notes : ForensicNotes;
  legal_relevance : gmap str str
}.

(** [get_forensic_summary]. *)
Definition get_forensic_summary (vin0 : str) : result ForensicSummary :=
  vin_info <- decode_vin vin0 ;;
  plant <- (if Nat.leb 11 (length vin0) then index vin0 10
            else Ok (lit "Unknown")) ;;
  Ok (mkForensicSummary
        (vin vin_info)
        (manufacturer vin_info)
        (model_year vin_info)
        (vehicle_type vin_info)
        (if is_valid vin_info then lit "VALID" else lit "INVALID")
        (mkForensicNotes
           (take 3 vin0)
           plant
           (if Nat.leb 12 (length vin0) then drop 11 vin0 else lit "Unknown"))
        (_assess_legal_relevance vin_info)).

End VINDecoder.

Import VINDecoder.

(** ** Sample inputs *)

(** The Palisade VIN of the source's self-test. *)
Definition palisade : str := lit "KM8R54HE1LU066808".

(** A BMW VIN whose year code (index 9) is [C], not in [MODEL_YEARS]. *)
Definition bmw_year_C : str := lit "WBA3A5C51CF256651".

(** A truncated, lower-case VIN. *)
Definition truncated : str := lit "km8r54he1lu".

(** "ß" (U+00DF), fifteen times "A", and a newline: 17 characters. Its
    upper-cased form is "SS", fifteen times "A", and the newline: 18
    characters, of which the first 17 match the class and the last is a
    final newline, which [$] accepts. *)
Definition sharp_s_newline : str := 223 :: lit "AAAAAAAAAAAAAAA" ++ [10].

(** The record decoded from [bmw_year_C]. *)
Definition bmw_year_C_record : VINInfo :=
  mkVINInfo bmw_year_C (lit "BMW") 0 (lit "F") (lit "Unknown Vehicle Type")
    true [lit "Unknown model year code: C"].

(** The Palisade VIN with the letter O at index 9. *)
Definition palisade_letter_O : str := lit "KM8R54HE1OU066808".

(** The record decoded from [palisade]. *)
Definition palisade_record : VINInfo :=
  mkVINInfo palisade (lit "Hyundai Motor Company") 2020 (lit "U")
    (lit "Palisade SUV") true [].

(** ** ASCII inputs *)

(** [chr(c).upper()] for an ASCII code point. *)
Definition ascii_upper (c : N) : N :=
  if (97 <=? c) && (c <=? 122) then c - 32 else c.

Definition is_ascii (s : str) : Prop := Forall (fun c => c < 128) s.

(** ** Facts about [str.upper] on ASCII *)

Lemma below_forall (P : N -> bool) (n : nat) :
  forallb P (map N.of_nat (seq 0 n)) = true ->
  forall c, c < N.of_nat n -> P c = true.
Proof.
  intros H c Hc. rewrite forallb_forall in H. apply H.
  apply in_map_iff. exists (N.to_nat c). split; [lia|].
  apply in_seq. lia.
Qed.

Lemma upper_char_ascii (c : N) : c < 128 -> upper_char c = [ascii_upper c].
Proof.
  intros Hc.
  pose (P := fun c => match upper_char c with
                      | [d] => d =? ascii_upper c
                      | _ => false
                      end).
  assert (H : P c = true).
  { apply (below_forall P 128); [vm_compute; reflexivity | exact Hc]. }
  unfold P in H. destruct (upper_char c) as [|d [|? ?]]; try discriminate.
  apply N.eqb_eq in H. congruence.
Qed.

Lemma char_class_range (c : N) :
  char_class c = true -> 48 <= c <= 90.
Proof.
  unfold char_class.
  rewrite !orb_true_iff, !andb_true_iff, !N.leb_le, N.eqb_eq. lia.
Qed.

Lemma char_class_ascii (c : N) : char_class c = true -> c < 128.
Proof. intros H%char_class_range. lia. Qed.

Lemma char_class_upper (c : N) : char_class c = true -> ascii_upper c = c.
Proof.
  intros H%char_class_range. unfold ascii_upper.
  destruct (N.leb_spec 97 c); [lia | reflexivity].
Qed.

Lemma upper_ascii (s : str) : is_ascii s -> upper s = map ascii_upper s.
Proof.
  induction 1 as [|c s Hc _ IH]; [reflexivity|].
  unfold upper in *. simpl. rewrite IH, (upper_char_ascii c Hc). reflexivity.
Qed.

Lemma upper_class (s : str) : forallb char_class s = true -> upper s = s.
Proof.
  induction s as [|c s IH]; [reflexivity|]. simpl.
  intros [Hc Hs]%andb_prop. unfold upper in *. simpl.
  rewrite (IH Hs), (upper_char_ascii c (char_class_ascii c Hc)).
  rewrite (char_class_upper c Hc). reflexivity.
Qed.

(** ** Facts about the pattern *)

Lemma match_repeat_Some (n : nat) (s rest : str) :
  match_repeat n s = Some rest ->
  s = take n s ++ rest /\ length (take n s) = n /\
  forallb char_class (take n s) = true.
Proof.
  revert s. induction n as [|n IH]; intros s H; simpl in H.
  - injection H as ->. auto.
  - destruct s as [|c s]; [discriminate|].
    destruct (char_class c) eqn:Hc; [|discriminate].
    destruct (IH s H) as (E & L & F). simpl.
    rewrite Hc, L, F. rewrite <- E. auto.
Qed.

Lemma match_repeat_exact (s : str) :
  match_repeat (length s) s =
  if forallb char_class s then Some [] else None.
Proof.
  induction s as [|c s IH]; [reflexivity|]. simpl.
  destruct (char_class c); [exact IH | reflexivity].
Qed.

Lemma vin_pattern_match_length (s : str) :
  vin_pattern_match s = true -> (17 <= length s)%nat.
Proof.
  unfold vin_pattern_match. destruct (match_repeat 17 s) as [rest|] eqn:E;
    [|discriminate].
  intros _. destruct (match_repeat_Some _ _ _ E) as (Es & L & _).
  rewrite Es, length_app. lia.
Qed.

Lemma vin_pattern_match_17 (s : str) :
  length s = 17%nat -> vin_pattern_match s = forallb char_class s.
Proof.
  intros L. unfold vin_pattern_match. rewrite <- L, match_repeat_exact.
  destruct (forallb char_class s); reflexivity.
Qed.

(** ** Facts about [validate_vin] *)

Lemma validate_vin_fst (vin : str) :
  fst (validate_vin vin) =
  Nat.eqb (length vin) 17 && vin_pattern_match (upper vin).
Proof.
  destruct vin as [|c s]; [reflexivity|].
  cbv [validate_vin _validate_check_digit].
  destruct (Nat.eqb (length (c :: s)) 17);
    destruct (vin_pattern_match (upper (c :: s))); reflexivity.
Qed.

Lemma validate_vin_nil_iff (vin : str) :
  snd (validate_vin vin) = [] <-> fst (validate_vin vin) = true.
Proof.
  destruct vin as [|c s]; [split; discriminate|].
  cbv [validate_vin _validate_check_digit].
  destruct (Nat.eqb (length (c :: s)) 17);
    destruct (vin_pattern_match (upper (c :: s)));
    split; (reflexivity || discriminate).
Qed.

Lemma validate_vin_nil_spec (vin : str) :
  snd (validate_vin vin) = [] <->
  length vin = 17%nat /\ vin_pattern_match (upper vin) = true /\
  _validate_check_digit vin = true.
Proof.
  rewrite validate_vin_nil_iff, validate_vin_fst, andb_true_iff.
  rewrite Nat.eqb_eq. unfold _validate_check_digit. tauto.
Qed.

(** ** Facts about [decode_vin] *)

Lemma decode_vin_invalid (vin : str) :
  fst (validate_vin vin) = false ->
  decode_vin vin =
  Ok (mkVINInfo vin (lit "Unknown") 0 (lit "") (lit "") false
        (snd (validate_vin vin))).
Proof.
  intros H. unfold decode_vin. destruct (validate_vin vin) as [b es].
  simpl in H. subst b. reflexivity.
Qed.

Lemma decode_vin_valid (vin : str) :
  fst (validate_vin vin) = true ->
  exists yc pc,
    upper vin !! 9%nat = Some yc /\ upper vin !! 10%nat = Some pc /\
    decode_vin vin =
    Ok (mkVINInfo (upper vin)
          (default (lit "Unknown (" ++ take 3 (upper vin) ++ lit ")")
             (MANUFACTURERS !! take 3 (upper vin)))
          (default 0%Z (MODEL_YEARS !! [yc]))
          [pc]
          (_determine_vehicle_type (upper vin))
          true
          (if (default 0%Z (MODEL_YEARS !! [yc]) =? 0)%Z
           then [lit "Unknown model year code: " ++ [yc]] else [])).
Proof.
  intros H.
  pose proof (proj2 (validate_vin_nil_iff vin) H) as Hn.
  pose proof H as Hm. rewrite validate_vin_fst in Hm.
  apply andb_prop in Hm as [_ Hm]. apply vin_pattern_match_length in Hm.
  destruct (lookup_lt_is_Some_2 (upper vin) 9 ltac:(lia)) as [yc Hy].
  destruct (lookup_lt_is_Some_2 (upper vin) 10 ltac:(lia)) as [pc Hp].
  exists yc, pc. split; [exact Hy|]. split; [exact Hp|].
  unfold decode_vin. destruct (validate_vin vin) as [b es].
  simpl in H, Hn. subst b es. cbn [negb]. unfold index.
  rewrite Hy, Hp. cbn [bind]. reflexivity.
Qed.

Lemma decode_vin_total (vin : str) : exists r, decode_vin vin = Ok r.
Proof.
  destruct (fst (validate_vin vin)) eqn:H.
  - destruct (decode_vin_valid vin H) as (yc & pc & _ & _ & E). eauto.
  - rewrite (decode_vin_invalid vin H). eauto.
Qed.

Lemma forallb_map_Forall (P : N -> bool) (f : N -> N) (s : str) :
  forallb P (map f s) = true <-> Forall (fun c => P (f c) = true) s.
Proof.
  induction s as [|c s IH]; simpl.
  - split; auto.
  - rewrite andb_true_iff, IH. split.
    + intros [? ?]. constructor; assumption.
    + inversion 1; subst. auto.
Qed.

Lemma startswith_take (s p : str) :
  startswith s p = true -> take (length p) s = p.
Proof.
  revert s. induction p as [|a p IH]; intros s H; [reflexivity|].
  destruct s as [|b s]; [discriminate|]. simpl in H.
  apply andb_prop in H as [Hab Hs]. apply N.eqb_eq in Hab. subst b.
  simpl. rewrite (IH s Hs). reflexivity.
Qed.

(** ** The validity flag and the error list *)

(** C1, as claimed, fails: the record decoded from a BMW VIN with an unmapped
    year code has [is_valid = True] and a non-empty [errors] list, so
    "valid iff no errors" does not hold of decoded records. *)
Lemma decode_valid_with_errors :
  exists r, decode_vin bmw_year_C = Ok r /\
            ~ (is_valid r = true <-> errors r = []).
Proof.
  eexists. split; [vm_compute; reflexivity|].
  simpl. intros [H _]. specialize (H eq_refl). discriminate H.
Qed.

(** C1, amended: [validate_vin] reports valid iff its error list is empty;
    [decode_vin] returns a record whose flag is that verdict and whose
    [errors] list is empty iff the flag is set and the model year was
    resolved (so an empty list implies the flag, not conversely). For an
    ASCII input, the error list of [validate_vin] is empty iff the input has
    17 characters, every character, upper-cased, is a digit or a letter other
    than I, O, Q, and the (placeholder) check digit test passes. *)
Theorem validity_invariant (vin0 : str) :
  (fst (validate_vin vin0) = true <-> snd (validate_vin vin0) = []) /\
  (exists r, decode_vin vin0 = Ok r /\
             is_valid r = fst (validate_vin vin0) /\
             (errors r = [] <-> is_valid r = true /\ model_year r <> 0%Z)) /\
  (is_ascii vin0 ->
     (snd (validate_vin vin0) = [] <->
        length vin0 = 17%nat /\
        Forall (fun c => char_class (ascii_upper c) = true) vin0 /\
        _validate_check_digit vin0 = true)).
Proof.
  split; [symmetry; apply validate_vin_nil_iff|]. split.
  - destruct (fst (validate_vin vin0)) eqn:H.
    + destruct (decode_vin_valid vin0 H) as (yc & pc & _ & _ & E).
      rewrite E. eexists. split; [reflexivity|].
      cbn [is_valid errors model_year]. split; [reflexivity|].
      destruct (Z.eqb_spec (default 0%Z (MODEL_YEARS !! [yc])) 0).
      * split; [discriminate | tauto].
      * tauto.
    + rewrite (decode_vin_invalid vin0 H). eexists. split; [reflexivity|].
      cbn [is_valid errors model_year]. split; [reflexivity|].
      rewrite validate_vin_nil_iff, H. split; [discriminate|].
      intros [? _]. discriminate.
  - intros Ha. rewrite validate_vin_nil_spec, (upper_ascii vin0 Ha).
    split; intros (L & M & D); (split; [exact L|]); (split; [|exact D]).
    + rewrite vin_pattern_match_17 in M by (rewrite length_map; exact L).
      apply forallb_map_Forall, M.
    + rewrite vin_pattern_match_17 by (rewrite length_map; exact L).
      apply forallb_map_Forall, M.
Qed.

Lemma palisade_ascii : is_ascii palisade.
Proof. repeat (constructor; [reflexivity|]). constructor. Qed.

Lemma validity_invariant_witness :
  snd (validate_vin palisade) = [] <->
  length palisade = 17%nat /\
  Forall (fun c => char_class (ascii_upper c) = true) palisade /\
  _validate_check_digit palisade = true.
Proof.
  exact (proj2 (proj2 (validity_invariant palisade)) palisade_ascii).
Defined.

(** ** The [vin] field *)

(** C2, as claimed, fails on the invalid path: a truncated lower-case VIN is
    returned as it came in, not upper-cased. *)
Lemma decode_invalid_keeps_case :
  exists r, decode_vin truncated = Ok r /\ vin r <> upper truncated.
Proof. eexists. split; [vm_compute; reflexivity|]. vm_compute. discriminate. Qed.

(** C2, amended: [decode_vin] returns a record whose [vin] is the input
    upper-cased when [validate_vin] accepts the input, and the input
    unchanged when it does not. *)
Theorem decode_vin_field (vin0 : str) :
  exists r, decode_vin vin0 = Ok r /\
            vin r = if fst (validate_vin vin0) then upper vin0 else vin0.
Proof.
  destruct (fst (validate_vin vin0)) eqn:H.
  - destruct (decode_vin_valid vin0 H) as (yc & pc & _ & _ & E).
    rewrite E. eexists. split; reflexivity.
  - rewrite (decode_vin_invalid vin0 H). eexists. split; reflexivity.
Qed.

(** ** Wrong length *)

(** C3, as claimed, fails at the empty string: its length is not 17, yet the
    only message returned is "VIN cannot be empty"; the message that reports
    the length is not in the list. *)
Lemma validate_empty_no_length_message :
  length ([] : str) <> 17%nat /\
  snd (validate_vin []) = [lit "VIN cannot be empty"] /\
  ~ In (lit "VIN must be 17 characters, got " ++ str_of_nat (length ([] : str)))
       (snd (validate_vin [])).
Proof.
  split; [discriminate|]. split; [reflexivity|].
  vm_compute. intros [H|[]]. discriminate H.
Qed.

(** C3, amended: for every string whose length is not 17, [validate_vin]
    returns [is_valid = False]; when the string is not empty the error list
    contains the message reporting its length, and for the empty string the
    list is the single message "VIN cannot be empty". *)
Theorem validate_wrong_length (vin : str) :
  length vin <> 17%nat ->
  fst (validate_vin vin) = false /\
  (vin <> [] ->
   In (lit "VIN must be 17 characters, got " ++ str_of_nat (length vin))
      (snd (validate_vin vin))) /\
  (vin = [] -> snd (validate_vin vin) = [lit "VIN cannot be empty"]).
Proof.
  intros L. apply Nat.eqb_neq in L. split; [|split].
  - rewrite validate_vin_fst, L. reflexivity.
  - destruct vin as [|c s]; [congruence|]. intros _.
    cbv [validate_vin _validate_check_digit]. rewrite L. cbn [negb app].
    destruct (vin_pattern_match (upper (c :: s))); cbn [negb andb app snd];
      left; reflexivity.
  - intros ->. reflexivity.
Qed.

Lemma validate_wrong_length_witness :
  fst (validate_vin truncated) = false /\
  (truncated <> [] ->
   In (lit "VIN must be 17 characters, got " ++ str_of_nat (length truncated))
      (snd (validate_vin truncated))) /\
  (truncated = [] -> snd (validate_vin truncated) = [lit "VIN cannot be empty"]).
Proof. apply (validate_wrong_length truncated). vm_compute. discriminate. Defined.

(** ** An unmapped year code *)

(** C4: a 17-character string over the permitted alphabet that starts with
    "WBA" and whose character at index 9 is not a key of [MODEL_YEARS]
    decodes to manufacturer "BMW" and model year 0; the unknown-model-year
    message for that character is in [errors], and [is_valid] is [True]. *)
Theorem decode_bmw_unknown_year (vin0 : str) (c : N) :
  length vin0 = 17%nat ->
  forallb char_class vin0 = true ->
  startswith vin0 (lit "WBA") = true ->
  vin0 !! 9%nat = Some c ->
  MODEL_YEARS !! [c] = None ->
  exists r, decode_vin vin0 = Ok r /\
            manufacturer r = lit "BMW" /\
            model_year r = 0%Z /\
            In (lit "Unknown model year code: " ++ [c]) (errors r) /\
            errors r <> [] /\
            is_valid r = true.
Proof.
  intros L C W Y M.
  assert (V : fst (validate_vin vin0) = true).
  { rewrite validate_vin_fst, (upper_class vin0 C).
    rewrite (vin_pattern_match_17 vin0 L), C.
    apply andb_true_intro. split; [apply Nat.eqb_eq, L | reflexivity]. }
  destruct (decode_vin_valid vin0 V) as (yc & pc & Hy & _ & E).
  rewrite (upper_class vin0 C) in Hy, E.
  assert (yc = c) by congruence. subst yc.
  change (take 3 vin0) with (take (length (lit "WBA")) vin0) in E.
  rewrite (startswith_take vin0 _ W), M in E.
  rewrite E. eexists. split; [reflexivity|]. simpl.
  repeat split; auto; discriminate.
Qed.

Lemma decode_bmw_unknown_year_witness :
  exists r, decode_vin bmw_year_C = Ok r /\
            manufacturer r = lit "BMW" /\
            model_year r = 0%Z /\
            In (lit "Unknown model year code: " ++ [67]) (errors r) /\
            errors r <> [] /\
            is_valid r = true.
Proof. apply (decode_bmw_unknown_year bmw_year_C 67); reflexivity. Defined.

(** ** The invalid path *)

(** C5: when [validate_vin] rejects the input, [decode_vin] returns
    manufacturer "Unknown", model year 0, empty plant code and vehicle type,
    [is_valid = False] and exactly the errors of [validate_vin]; for the
    empty string these are the single message "VIN cannot be empty". *)
Theorem decode_invalid_placeholders (vin0 : str) :
  fst (validate_vin vin0) = false ->
  exists r, decode_vin vin0 = Ok r /\
            manufacturer r = lit "Unknown" /\
            model_year r = 0%Z /\
            plant_code r = lit "" /\
            vehicle_type r = lit "" /\
            is_valid r = false /\
            errors r = snd (validate_vin vin0) /\
            (vin0 = [] -> errors r = [lit "VIN cannot be empty"]).
Proof.
  intros H. rewrite (decode_vin_invalid vin0 H). eexists.
  split; [reflexivity|]. simpl. repeat split. intros ->. reflexivity.
Qed.

Lemma decode_invalid_placeholders_witness :
  exists r, decode_vin [] = Ok r /\
            manufacturer r = lit "Unknown" /\
            model_year r = 0%Z /\
            plant_code r = lit "" /\
            vehicle_type r = lit "" /\
            is_valid r = false /\
            errors r = snd (validate_vin []) /\
            (([] : str) = [] -> errors r = [lit "VIN cannot be empty"]).
Proof. apply (decode_invalid_placeholders []). reflexivity. Defined.

(** ** The Palisade VIN *)

(** C6: "KM8R54HE1LU066808" decodes to manufacturer "Hyundai Motor Company",
    model year 2020 (its character at index 9 is "L"), vehicle type
    "Palisade SUV", [is_valid = True] and no errors. *)
Theorem decode_palisade :
  palisade !! 9%nat = Some 76 /\ lit "L" = [76] /\
  exists r, decode_vin (lit "KM8R54HE1LU066808") = Ok r /\
            manufacturer r = lit "Hyundai Motor Company" /\
            model_year r = 2020%Z /\
            vehicle_type r = lit "Palisade SUV" /\
            is_valid r = true /\
            errors r = [].
Proof.
  split; [reflexivity|]. split; [reflexivity|].
  eexists. split; [vm_compute; reflexivity|]. repeat split.
Qed.

(** ** Decoding twice *)

(** Where upper-casing keeps the length of the input (every ASCII input
    does), decoding the [vin] of a decoded record gives that record again. *)
Lemma decode_idempotent_same_length (vin0 : str) (r : VINInfo) :
  length (upper vin0) = length vin0 ->
  decode_vin vin0 = Ok r -> decode_vin (vin r) = Ok r.
Proof.
  intros L D. destruct (fst (validate_vin vin0)) eqn:V.
  - destruct (decode_vin_valid vin0 V) as (yc & pc & Hy & Hp & E).
    pose proof V as V'. rewrite validate_vin_fst in V'.
    apply andb_prop in V' as [L17 M]. apply Nat.eqb_eq in L17.
    rewrite vin_pattern_match_17 in M by congruence.
    assert (U : upper (upper vin0) = upper vin0) by (apply upper_class, M).
    assert (V2 : fst (validate_vin (upper vin0)) = true).
    { rewrite validate_vin_fst, U, vin_pattern_match_17, M by congruence.
      rewrite L, L17. reflexivity. }
    destruct (decode_vin_valid _ V2) as (yc' & pc' & Hy' & Hp' & E').
    rewrite U in Hy', Hp', E'.
    assert (yc' = yc) by congruence. assert (pc' = pc) by congruence.
    subst yc' pc'. rewrite E in D. injection D as <-. exact E'.
  - rewrite (decode_vin_invalid vin0 V) in D. injection D as <-.
    simpl. apply (decode_vin_invalid vin0 V).
Qed.

(** X6: for an ASCII input, decoding the [vin] of the record that
    [decode_vin] returned gives that same record again. *)
Lemma decode_idempotent_ascii (vin0 : str) (r : VINInfo) :
  is_ascii vin0 -> decode_vin vin0 = Ok r -> decode_vin (vin r) = Ok r.
Proof.
  intros A. apply decode_idempotent_same_length.
  rewrite (upper_ascii vin0 A). apply length_map.
Qed.

Lemma decode_idempotent_ascii_witness :
  decode_vin (vin palisade_record) = Ok palisade_record.
Proof.
  apply (decode_idempotent_ascii palisade palisade_record palisade_ascii).
  vm_compute. reflexivity.
Defined.

(** C7 fails on the code at [sharp_s_newline]: the input has 17 characters
    and its upper-cased form matches the pattern, so it is decoded as valid,
    with the 18-character upper-cased form as [vin]; decoding that [vin]
    again fails the length check and gives an invalid record. *)
Theorem decode_twice_differs :
  length sharp_s_newline = 17%nat /\
  exists r1 r2,
    decode_vin sharp_s_newline = Ok r1 /\
    decode_vin (vin r1) = Ok r2 /\
    vin r1 = lit "SSAAAAAAAAAAAAAAA" ++ [10] /\
    is_valid r1 = true /\
    is_valid r2 = false /\
    errors r2 = [lit "VIN must be 17 characters, got 18"] /\
    r1 <> r2.
Proof.
  split; [reflexivity|]. eexists. eexists.
  split; [vm_compute; reflexivity|].
  split; [vm_compute; reflexivity|].
  repeat (split; [reflexivity|]). discriminate.
Qed.

(** ** No exception *)

Lemma get_forensic_summary_eq (vin0 : str) :
  exists r,
    decode_vin vin0 = Ok r /\
    get_forensic_summary vin0 =
    Ok (mkForensicSummary (vin r) (manufacturer r) (model_year r)
          (vehicle_type r)
          (if is_valid r then lit "VALID" else lit "INVALID")
          (mkForensicNotes
             (take 3 vin0)
             (if Nat.leb 11 (length vin0) then take 1 (drop 10 vin0)
              else lit "Unknown")
             (if Nat.leb 12 (length vin0) then drop 11 vin0
              else lit "Unknown"))
          (_assess_legal_relevance r)).
Proof.
  destruct (decode_vin_total vin0) as [r D]. exists r. split; [exact D|].
  unfold get_forensic_summary. rewrite D. cbn [bind].
  destruct (Nat.leb 11 (length vin0)) eqn:L; [|reflexivity].
  apply Nat.leb_le in L.
  destruct (lookup_lt_is_Some_2 vin0 10 ltac:(lia)) as [c Hc].
  unfold index. rewrite Hc. cbn [bind].
  rewrite (drop_S vin0 c 10 Hc). reflexivity.
Qed.

(** C8: on every input string [validate_vin] returns its pair (it performs
    no operation that can raise), and [decode_vin] and
    [get_forensic_summary] return normally: neither index of [decode_vin]
    nor the guarded index of [get_forensic_summary] is out of range.
    [decode_vin] returns a [VINInfo], a record with all seven fields. *)
Theorem no_exception (vin0 : str) :
  (exists b es, validate_vin vin0 = (b, es)) /\
  (exists r, decode_vin vin0 =
             Ok (mkVINInfo (vin r) (manufacturer r) (model_year r)
                   (plant_code r) (vehicle_type r) (is_valid r) (errors r))) /\
  (exists s, get_forensic_summary vin0 = Ok s).
Proof.
  split; [|split].
  - destruct (validate_vin vin0) as [b es]. eauto.
  - destruct (decode_vin_total vin0) as [r D]. exists r. rewrite D.
    destruct r; reflexivity.
  - destruct (get_forensic_summary_eq vin0) as (r & _ & E). eauto.
Qed.

(** ** The forensic summary *)

(** C9: in the summary, the plant code of the forensic notes is the
    character at index 10 of the input when the input has at least 11
    characters and "Unknown" otherwise; the serial number is the input from
    index 11 on when the input has at least 12 characters and "Unknown"
    otherwise; and the legal-relevance dictionary is non-empty iff the
    decoded vehicle type contains "Palisade", in which case it holds the
    three fixed entries and nothing else. *)
Theorem forensic_summary_blocks (vin0 : str) :
  exists r s,
    decode_vin vin0 = Ok r /\
    get_forensic_summary vin0 = Ok s /\
    notes_plant_code (forensic_notes s) =
      (if Nat.leb 11 (length vin0) then take 1 (drop 10 vin0)
       else lit "Unknown") /\
    serial_number (forensic_notes s) =
      (if Nat.leb 12 (length vin0) then drop 11 vin0 else lit "Unknown") /\
    (legal_relevance s <> ∅ <->
     contains (lit "Palisade") (vehicle_type r) = true) /\
    (if contains (lit "Palisade") (vehicle_type r)
     then legal_relevance s !! lit "known_issues" =
            Some (lit "Oil consumption defects documented in class action suits") /\
          legal_relevance s !! lit "warranty_status" =
            Some (lit "10-year powertrain warranty applicable") /\
          legal_relevance s !! lit "recall_potential" =
            Some (lit "Check NHTSA database for active recalls") /\
          size (legal_relevance s) = 3%nat
     else legal_relevance s = ∅).
Proof.
  destruct (get_forensic_summary_eq vin0) as (r & D & E).
  exists r. eexists. split; [exact D|]. split; [exact E|].
  cbn [forensic_notes notes_plant_code serial_number legal_relevance].
  split; [reflexivity|]. split; [reflexivity|].
  unfold _assess_legal_relevance.
  destruct (contains (lit "Palisade") (vehicle_type r)).
  - split.
    + split; [reflexivity|]. intros _. apply insert_non_empty.
    + repeat split; vm_compute; reflexivity.
  - split; [|reflexivity]. split; [congruence | discriminate].
Qed.

(** ** Errors of a valid record *)

Lemma MODEL_YEARS_nonzero (k : str) (y : Z) :
  MODEL_YEARS !! k = Some y -> y <> 0%Z.
Proof.
  unfold MODEL_YEARS. intros H%elem_of_list_to_map_2.
  repeat (apply elem_of_cons in H as [H|H];
          [injection H as -> ->; discriminate|]).
  apply elem_of_nil in H. destruct H.
Qed.

(** C10: a record returned by [decode_vin] with [is_valid = True] has at most
    one error; when it has one, it is the unknown-model-year message for the
    character at index 9 of the record's [vin], a character that is not a key
    of [MODEL_YEARS]. *)
Theorem valid_record_errors (vin0 : str) (r : VINInfo) :
  decode_vin vin0 = Ok r ->
  is_valid r = true ->
  (length (errors r) <= 1)%nat /\
  (errors r = [] \/
   exists c, vin r !! 9%nat = Some c /\
             MODEL_YEARS !! [c] = None /\
             model_year r = 0%Z /\
             errors r = [lit "Unknown model year code: " ++ [c]]).
Proof.
  intros D V. destruct (fst (validate_vin vin0)) eqn:F.
  - destruct (decode_vin_valid vin0 F) as (yc & pc & Hy & _ & E).
    rewrite E in D. injection D as <-. cbn [errors vin model_year].
    destruct (MODEL_YEARS !! [yc]) as [y|] eqn:M; cbn [from_option id].
    + apply MODEL_YEARS_nonzero in M. apply Z.eqb_neq in M. rewrite M.
      split; [simpl; lia | left; reflexivity].
    + split; [simpl; lia|]. right. exists yc. auto.
  - rewrite (decode_vin_invalid vin0 F) in D. injection D as <-.
    discriminate V.
Qed.

Lemma valid_record_errors_witness :
  (length (errors bmw_year_C_record) <= 1)%nat /\
  (errors bmw_year_C_record = [] \/
   exists c, vin bmw_year_C_record !! 9%nat = Some c /\
             MODEL_YEARS !! [c] = None /\
             model_year bmw_year_C_record = 0%Z /\
             errors bmw_year_C_record = [lit "Unknown model year code: " ++ [c]]).
Proof.
  apply (valid_record_errors bmw_year_C bmw_year_C_record);
    [vm_compute; reflexivity | reflexivity].
Defined.

(** * Further properties of the decoder *)

(** ** More facts about the pattern and [validate_vin] *)

Lemma vin_pattern_match_inv (s : str) :
  vin_pattern_match s = true ->
  exists pre rest,
    s = pre ++ rest /\ length pre = 17%nat /\
    forallb char_class pre = true /\ (rest = [] \/ rest = [10]).
Proof.
  unfold vin_pattern_match.
  destruct (match_repeat 17 s) as [rest|] eqn:E; [|discriminate].
  intros D. destruct (match_repeat_Some _ _ _ E) as (Es & L & F).
  exists (take 17 s), rest. repeat split; try assumption.
  destruct rest as [|c [|? ?]]; [left; reflexivity | | discriminate].
  right. simpl in D. apply N.eqb_eq in D. congruence.
Qed.

Lemma vin_pattern_match_chars (s : str) (d : N) :
  vin_pattern_match s = true -> In d s -> char_class d = true \/ d = 10.
Proof.
  intros (pre & rest & -> & _ & F & R)%vin_pattern_match_inv.
  intros [H|H]%in_app_or.
  - left. rewrite forallb_forall in F. apply F, H.
  - right. destruct R as [-> | ->]; [destruct H|].
    destruct H as [<-|[]]. reflexivity.
Qed.

Lemma validate_vin_cons (vin : str) :
  vin <> [] ->
  validate_vin vin =
  (Nat.eqb (length vin) 17 && vin_pattern_match (upper vin),
   (if Nat.eqb (length vin) 17 then []
    else [lit "VIN must be 17 characters, got " ++ str_of_nat (length vin)]) ++
   (if vin_pattern_match (upper vin) then []
    else [lit "VIN contains invalid characters (I, O, Q not allowed)"])).
Proof.
  destruct vin as [|c s]; [congruence|]. intros _.
  cbv [validate_vin _validate_check_digit].
  destruct (Nat.eqb (length (c :: s)) 17);
    destruct (vin_pattern_match (upper (c :: s))); reflexivity.
Qed.

Lemma in_upper (s : str) (c : N) :
  c < 128 -> In c s -> In (ascii_upper c) (upper s).
Proof.
  intros Hc H. unfold upper. apply in_flat_map. exists c.
  split; [exact H|]. rewrite (upper_char_ascii c Hc). left. reflexivity.
Qed.

Ltac in_list := simpl; repeat first [left; reflexivity | right].

Lemma truncated_ascii : is_ascii truncated.
Proof. repeat (constructor; [reflexivity|]). constructor. Qed.

(** ** Forbidden letters *)

(** X1: a string that contains one of the letters I, O, Q, in either case
    and at any position, is rejected by [validate_vin], and the
    invalid-characters message is among the errors. *)
Theorem validate_rejects_IOQ (vin0 : str) (c : N) :
  In c vin0 ->
  In c (lit "IOQioq") ->
  fst (validate_vin vin0) = false /\
  In (lit "VIN contains invalid characters (I, O, Q not allowed)")
     (snd (validate_vin vin0)).
Proof.
  intros Hin Hc.
  assert (M : vin_pattern_match (upper vin0) = false).
  { destruct (vin_pattern_match (upper vin0)) eqn:M; [|reflexivity].
    assert (Hu : c < 128 /\ char_class (ascii_upper c) = false /\
                 ascii_upper c <> 10).
    { simpl in Hc.
      repeat (destruct Hc as [<-|Hc]; [repeat split; discriminate|]).
      destruct Hc. }
    destruct Hu as (Hlt & Hcl & Hnl).
    destruct (vin_pattern_match_chars _ _ M (in_upper vin0 c Hlt Hin));
      congruence. }
  assert (N0 : vin0 <> []) by (intros ->; destruct Hin).
  rewrite (validate_vin_cons vin0 N0), M. cbn [fst snd].
  split; [apply andb_false_r|]. apply in_or_app. right. left. reflexivity.
Qed.

Lemma validate_rejects_IOQ_witness :
  fst (validate_vin palisade_letter_O) = false /\
  In (lit "VIN contains invalid characters (I, O, Q not allowed)")
     (snd (validate_vin palisade_letter_O)).
Proof. apply (validate_rejects_IOQ palisade_letter_O 79); in_list. Defined.

(** ** The check digit is not verified *)

Lemma validate_vin_no_check_digit_message (vin0 : str) :
  ~ In (lit "Invalid VIN check digit") (snd (validate_vin vin0)).
Proof.
  destruct vin0 as [|c s].
  - simpl. intros [H|[]]. discriminate H.
  - rewrite validate_vin_cons by discriminate. cbn [snd].
    intros [H|H]%in_app_or.
    + destruct (Nat.eqb (length (c :: s)) 17); [destruct H|].
      destruct H as [H|[]]. discriminate H.
    + destruct (vin_pattern_match (upper (c :: s))); [destruct H|].
      destruct H as [H|[]]. discriminate H.
Qed.

(** X2: the check digit is never verified: the "Invalid VIN check digit"
    message is in no error list, neither of [validate_vin] nor of the record
    returned by [decode_vin], whatever the input. *)
Theorem check_digit_never_reported (vin0 : str) :
  ~ In (lit "Invalid VIN check digit") (snd (validate_vin vin0)) /\
  exists r, decode_vin vin0 = Ok r /\
            ~ In (lit "Invalid VIN check digit") (errors r).
Proof.
  split.
  - apply validate_vin_no_check_digit_message.
  - destruct (fst (validate_vin vin0)) eqn:V.
    + destruct (decode_vin_valid vin0 V) as (yc & pc & _ & _ & E).
      rewrite E. eexists. split; [reflexivity|]. cbn [errors].
      destruct (_ =? _)%Z; [|intros []].
      intros [H|[]]. discriminate H.
    + rewrite (decode_vin_invalid vin0 V). eexists. split; [reflexivity|].
      apply validate_vin_no_check_digit_message.
Qed.

(** ** Wrong length *)

(** X3: a non-empty ASCII string whose length is neither 17 nor 18 gets
    exactly two errors, whatever its characters: the length message, then
    the invalid-characters message (the pattern asks for 17 characters, so
    it fails on every such string). *)
Theorem validate_wrong_length_two_errors (vin0 : str) :
  is_ascii vin0 ->
  vin0 <> [] ->
  length vin0 <> 17%nat ->
  length vin0 <> 18%nat ->
  validate_vin vin0 =
  (false,
   [lit "VIN must be 17 characters, got " ++ str_of_nat (length vin0);
    lit "VIN contains invalid characters (I, O, Q not allowed)"]).
Proof.
  intros A N0 L17 L18. rewrite (validate_vin_cons vin0 N0).
  assert (M : vin_pattern_match (upper vin0) = false).
  { destruct (vin_pattern_match (upper vin0)) eqn:M; [|reflexivity].
    apply vin_pattern_match_inv in M as (pre & rest & E & Lp & _ & R).
    apply (f_equal length) in E.
    rewrite (upper_ascii vin0 A), length_map, length_app, Lp in E.
    destruct R as [-> | ->]; simpl in E; lia. }
  rewrite M. apply Nat.eqb_neq in L17. rewrite L17. reflexivity.
Qed.

Lemma validate_wrong_length_two_errors_witness :
  validate_vin truncated =
  (false,
   [lit "VIN must be 17 characters, got " ++ str_of_nat (length truncated);
    lit "VIN contains invalid characters (I, O, Q not allowed)"]).
Proof.
  apply (validate_wrong_length_two_errors truncated truncated_ascii);
    vm_compute; discriminate.
Defined.

(** X4: a 17-character string over the permitted alphabet followed by a
    newline passes the character check ([$] matches before a final
    newline): the only error is the length message, for 18 characters. *)
Theorem validate_trailing_newline (s : str) :
  length s = 17%nat ->
  forallb char_class s = true ->
  validate_vin (s ++ [10]) =
  (false, [lit "VIN must be 17 characters, got 18"]).
Proof.
  intros L C.
  assert (N0 : s ++ [10] <> []) by (destruct s; discriminate).
  rewrite (validate_vin_cons _ N0).
  assert (U : upper (s ++ [10]) = s ++ [10]).
  { unfold upper. rewrite flat_map_app. fold (upper s).
    rewrite (upper_class s C). reflexivity. }
  assert (M : vin_pattern_match (s ++ [10]) = true).
  { unfold vin_pattern_match.
    assert (R : forall n (p q : str), length p = n ->
                forallb char_class p = true ->
                match_repeat n (p ++ q) = Some q).
    { clear. induction n as [|n IH]; intros [|a p] q Lp Cp; try discriminate.
      - reflexivity.
      - simpl in *. apply andb_prop in Cp as [-> Cp]. apply IH; congruence. }
    rewrite (R 17%nat s [10] L C). reflexivity. }
  rewrite U, M, length_app, L. reflexivity.
Qed.

Lemma validate_trailing_newline_witness :
  validate_vin (palisade ++ [10]) =
  (false, [lit "VIN must be 17 characters, got 18"]).
Proof. apply (validate_trailing_newline palisade); reflexivity. Defined.


(** ** Case *)

Lemma ascii_upper_idem (c : N) : ascii_upper (ascii_upper c) = ascii_upper c.
Proof.
  unfold ascii_upper.
  destruct ((97 <=? c) && (c <=? 122)) eqn:E; [|rewrite E; reflexivity].
  apply andb_prop in E as [L U]. apply N.leb_le in L, U.
  destruct (N.leb_spec 97 (c - 32)); [lia | reflexivity].
Qed.

Lemma ascii_upper_ascii (c : N) : c < 128 -> ascii_upper c < 128.
Proof. unfold ascii_upper. destruct (_ && _); lia. Qed.

Lemma upper_is_ascii (s : str) : is_ascii s -> is_ascii (upper s).
Proof.
  intros A. rewrite (upper_ascii s A). unfold is_ascii in *.
  induction A as [|c s Hc _ IH]; constructor;
    [apply ascii_upper_ascii, Hc | exact IH].
Qed.

Lemma upper_upper_ascii (s : str) : is_ascii s -> upper (upper s) = upper s.
Proof.
  intros A. rewrite (upper_ascii _ (upper_is_ascii s A)), (upper_ascii s A).
  rewrite map_map. apply map_ext. intros c. apply ascii_upper_idem.
Qed.

Lemma validate_vin_upper_ascii (vin0 : str) :
  is_ascii vin0 -> validate_vin (upper vin0) = validate_vin vin0.
Proof.
  intros A. destruct vin0 as [|c s]; [reflexivity|].
  assert (L : length (upper (c :: s)) = length (c :: s))
    by (rewrite (upper_ascii _ A); apply length_map).
  rewrite (validate_vin_cons (c :: s)) by discriminate.
  rewrite validate_vin_cons
    by (intros E; rewrite E in L; discriminate L).
  rewrite (upper_upper_ascii _ A), L. reflexivity.
Qed.

(** X5: decoding is case-insensitive on ASCII input. [validate_vin] returns
    the same verdict and the same errors for an ASCII string and for its
    upper-cased form, and [decode_vin] returns for both records that agree
    on every field but [vin] (the record of the upper-cased form carries
    the upper-cased form; that of a rejected string the string as given). *)
Theorem decode_case_insensitive (vin0 : str) :
  is_ascii vin0 ->
  validate_vin (upper vin0) = validate_vin vin0 /\
  exists r r',
    decode_vin vin0 = Ok r /\ decode_vin (upper vin0) = Ok r' /\
    vin r' = upper vin0 /\
    manufacturer r' = manufacturer r /\
    model_year r' = model_year r /\
    plant_code r' = plant_code r /\
    vehicle_type r' = vehicle_type r /\
    is_valid r' = is_valid r /\
    errors r' = errors r.
Proof.
  intros A. pose proof (validate_vin_upper_ascii vin0 A) as VU.
  split; [exact VU|]. destruct (fst (validate_vin vin0)) eqn:V.
  - destruct (decode_vin_valid vin0 V) as (yc & pc & Hy & Hp & E).
    assert (V' : fst (validate_vin (upper vin0)) = true) by congruence.
    destruct (decode_vin_valid _ V') as (yc' & pc' & Hy' & Hp' & E').
    rewrite (upper_upper_ascii vin0 A) in Hy', Hp', E'.
    assert (yc' = yc) by congruence. assert (pc' = pc) by congruence.
    subst yc' pc'. rewrite E, E'. do 2 eexists.
    split; [reflexivity|]. split; [reflexivity|]. repeat split.
  - assert (V' : fst (validate_vin (upper vin0)) = false) by congruence.
    rewrite (decode_vin_invalid vin0 V), (decode_vin_invalid _ V'), VU.
    do 2 eexists. split; [reflexivity|]. split; [reflexivity|].
    repeat split.
Qed.

Lemma decode_case_insensitive_witness :
  validate_vin (upper truncated) = validate_vin truncated /\
  exists r r',
    decode_vin truncated = Ok r /\ decode_vin (upper truncated) = Ok r' /\
    vin r' = upper truncated /\
    manufacturer r' = manufacturer r /\
    model_year r' = model_year r /\
    plant_code r' = plant_code r /\
    vehicle_type r' = vehicle_type r /\
    is_valid r' = is_valid r /\
    errors r' = errors r.
Proof. exact (decode_case_insensitive truncated truncated_ascii). Defined.

(** ** Manufacturer and vehicle type *)

Lemma take_startswith (s p : str) :
  take (length p) s = p -> startswith s p = true.
Proof.
  revert s. induction p as [|a p IH]; intros s H;
    [destruct s; reflexivity|].
  destruct s as [|b s]; [discriminate|]. simpl in H.
  injection H as -> H. simpl. rewrite N.eqb_refl. apply IH, H.
Qed.

Lemma MANUFACTURERS_hyundai (wmi : str) (m : str) :
  MANUFACTURERS !! wmi = Some m ->
  m = lit "Hyundai Motor Company" -> wmi = lit "KM8".
Proof.
  unfold MANUFACTURERS. intros H%elem_of_list_to_map_2 ->.
  apply elem_of_cons in H as [H|H]; [injection H as ->; reflexivity|].
  repeat (apply elem_of_cons in H as [H|H];
          [injection H as _ H; discriminate H|]).
  apply elem_of_nil in H. destruct H.
Qed.

Lemma _determine_vehicle_type_cases (u : str) :
  _determine_vehicle_type u =
    (if startswith u (lit "KM8R54HE") then lit "Palisade SUV"
     else if startswith u (lit "KM8") then lit "Hyundai Vehicle"
     else lit "Unknown Vehicle Type") /\
  (startswith u (lit "KM8R54HE") = true -> startswith u (lit "KM8") = true).
Proof.
  split; [reflexivity|]. intros H%startswith_take.
  apply take_startswith. change (length (lit "KM8")) with 3%nat.
  change (length (lit "KM8R54HE")) with 8%nat in H.
  change (take 3 u) with (take (Nat.min 3 8) u).
  rewrite <- take_take, H. reflexivity.
Qed.

(** X7: the two lookups of [decode_vin] agree on Hyundai. In every decoded
    record the vehicle type is "Palisade SUV" or "Hyundai Vehicle" iff the
    manufacturer is "Hyundai Motor Company"; and it is "Palisade SUV" iff the
    record is valid and its [vin] starts with "KM8R54HE". *)
Theorem hyundai_type_iff_manufacturer (vin0 : str) :
  exists r,
    decode_vin vin0 = Ok r /\
    ((vehicle_type r = lit "Palisade SUV" \/
      vehicle_type r = lit "Hyundai Vehicle") <->
     manufacturer r = lit "Hyundai Motor Company") /\
    (vehicle_type r = lit "Palisade SUV" <->
     is_valid r = true /\ startswith (vin r) (lit "KM8R54HE") = true).
Proof.
  destruct (fst (validate_vin vin0)) eqn:V.
  - destruct (decode_vin_valid vin0 V) as (yc & pc & _ & _ & E).
    rewrite E. eexists. split; [reflexivity|].
    cbn [vehicle_type manufacturer is_valid vin].
    destruct (_determine_vehicle_type_cases (upper vin0)) as [-> S83].
    destruct (startswith (upper vin0) (lit "KM8")) eqn:S3.
    + apply startswith_take in S3.
      change (length (lit "KM8")) with 3%nat in S3. rewrite S3.
      change (MANUFACTURERS !! lit "KM8")
        with (Some (lit "Hyundai Motor Company")). cbn [from_option id].
      destruct (startswith (upper vin0) (lit "KM8R54HE"));
        (split; [split; auto|]);
        [split; auto
        |split; [intros H; discriminate H | intros [_ H]; discriminate H]].
    + destruct (startswith (upper vin0) (lit "KM8R54HE")) eqn:S8;
        [specialize (S83 eq_refl); discriminate S83|].
      split; (split; [intros H | ]).
      * destruct H as [H|H]; discriminate H.
      * intros H. exfalso.
        destruct (MANUFACTURERS !! take 3 (upper vin0)) as [m|] eqn:M;
          cbn [from_option id] in H; [|discriminate H].
        pose proof (MANUFACTURERS_hyundai _ _ M H) as W.
        rewrite (take_startswith _ (lit "KM8") W) in S3. discriminate S3.
      * discriminate H.
      * intros [_ H]. discriminate H.
  - rewrite (decode_vin_invalid vin0 V). eexists. split; [reflexivity|].
    cbn [vehicle_type manufacturer is_valid vin]. split; split.
    + intros [H|H]; discriminate H.
    + intros H. discriminate H.
    + intros H. discriminate H.
    + intros [H _]. discriminate H.
Qed.

(** ** Model year *)

(** X8: the model year of a decoded record is 0 or lies in 2020..2025; when
    it is not 0, the character at index 9 of the record's [vin] is one of
    L, M, N, P, R, S, and the year is 2020 plus the position of that
    character in "LMNPRS". *)
Theorem model_year_from_code (vin0 : str) (r : VINInfo) :
  decode_vin vin0 = Ok r ->
  model_year r = 0%Z \/
  ((2020 <= model_year r <= 2025)%Z /\
   exists c i, vin r !! 9%nat = Some c /\
               lit "LMNPRS" !! i = Some c /\
               model_year r = (2020 + Z.of_nat i)%Z).
Proof.
  intros D. destruct (fst (validate_vin vin0)) eqn:V.
  - destruct (decode_vin_valid vin0 V) as (yc & pc & Hy & _ & E).
    rewrite E in D. injection D as <-. cbn [model_year vin].
    destruct (MODEL_YEARS !! [yc]) as [y|] eqn:M; cbn [from_option id];
      [|left; reflexivity].
    right. unfold MODEL_YEARS in M. apply elem_of_list_to_map_2 in M.
    assert (K : forall i c0 y0, ([yc], y) = ([c0], y0) ->
                lit "LMNPRS" !! i = Some c0 -> y0 = (2020 + Z.of_nat i)%Z ->
                (2020 <= y0 <= 2025)%Z ->
                (2020 <= y <= 2025)%Z /\
                exists c i, upper vin0 !! 9%nat = Some c /\
                            lit "LMNPRS" !! i = Some c /\
                            y = (2020 + Z.of_nat i)%Z).
    { intros i c0 y0 Ep Hi Hy0 Hr. injection Ep as -> ->. eauto 6. }
    apply elem_of_cons in M as [M|M];
      [apply (K 0%nat _ _ M); [reflexivity | reflexivity | lia]|].
    apply elem_of_cons in M as [M|M];
      [apply (K 1%nat _ _ M); [reflexivity | reflexivity | lia]|].
    apply elem_of_cons in M as [M|M];
      [apply (K 2%nat _ _ M); [reflexivity | reflexivity | lia]|].
    apply elem_of_cons in M as [M|M];
      [apply (K 3%nat _ _ M); [reflexivity | reflexivity | lia]|].
    apply elem_of_cons in M as [M|M];
      [apply (K 4%nat _ _ M); [reflexivity | reflexivity | lia]|].
    apply elem_of_cons in M as [M|M];
      [apply (K 5%nat _ _ M); [reflexivity | reflexivity | lia]|].
    apply elem_of_nil in M. destruct M.
  - rewrite (decode_vin_invalid vin0 V) in D. injection D as <-.
    left. reflexivity.
Qed.

Lemma model_year_from_code_witness :
  model_year palisade_record = 0%Z \/
  ((2020 <= model_year palisade_record <= 2025)%Z /\
   exists c i, vin palisade_record !! 9%nat = Some c /\
               lit "LMNPRS" !! i = Some c /\
               model_year palisade_record = (2020 + Z.of_nat i)%Z).
Proof.
  apply (model_year_from_code palisade palisade_record).
  vm_compute. reflexivity.
Defined.

(** ** Shape of a valid record *)

(** X9: when [decode_vin] returns a valid record for an ASCII input, the
    record's [vin] is the input upper-cased character by character, has
    exactly 17 characters, all of the permitted alphabet, and the plant code
    is its character at index 10. *)
Theorem valid_record_shape (vin0 : str) (r : VINInfo) :
  is_ascii vin0 ->
  decode_vin vin0 = Ok r ->
  is_valid r = true ->
  vin r = map ascii_upper vin0 /\
  length (vin r) = 17%nat /\
  forallb char_class (vin r) = true /\
  exists c, vin r !! 10%nat = Some c /\ plant_code r = [c] /\
            char_class c = true.
Proof.
  intros A D I. destruct (fst (validate_vin vin0)) eqn:V.
  - destruct (decode_vin_valid vin0 V) as (yc & pc & _ & Hp & E).
    rewrite E in D. injection D as <-. cbn [vin plant_code].
    rewrite validate_vin_fst in V. apply andb_prop in V as [L M].
    apply Nat.eqb_eq in L. rewrite (upper_ascii vin0 A) in *.
    assert (L' : length (map ascii_upper vin0) = 17%nat)
      by (rewrite length_map; exact L).
    rewrite (vin_pattern_match_17 _ L') in M.
    repeat split; try assumption. exists pc. repeat split; try assumption.
    rewrite forallb_forall in M. apply M.
    apply list_elem_of_In, list_elem_of_lookup. eauto.
  - rewrite (decode_vin_invalid vin0 V) in D. injection D as <-.
    discriminate I.
Qed.

Lemma valid_record_shape_witness :
  vin palisade_record = map ascii_upper palisade /\
  length (vin palisade_record) = 17%nat /\
  forallb char_class (vin palisade_record) = true /\
  exists c, vin palisade_record !! 10%nat = Some c /\
            plant_code palisade_record = [c] /\
            char_class c = true.
Proof.
  apply (valid_record_shape palisade palisade_record palisade_ascii);
    [vm_compute; reflexivity | reflexivity].
Defined.

(** ** The summary as a function of the input *)

(** X10: in the forensic summary, the validation status is "VALID" when
    [validate_vin] accepts the input and "INVALID" otherwise, and the
    legal-relevance dictionary is non-empty iff the input is accepted and
    its upper-cased form starts with "KM8R54HE". *)
Theorem summary_status_and_relevance (vin0 : str) :
  exists s,
    get_forensic_summary vin0 = Ok s /\
    validation_status s =
      (if fst (validate_vin vin0) then lit "VALID" else lit "INVALID") /\
    (legal_relevance s <> ∅ <->
     fst (validate_vin vin0) = true /\
     startswith (upper vin0) (lit "KM8R54HE") = true).
Proof.
  destruct (get_forensic_summary_eq vin0) as (r & D & E).
  rewrite E. eexists. split; [reflexivity|].
  cbn [validation_status legal_relevance]. unfold _assess_legal_relevance.
  destruct (fst (validate_vin vin0)) eqn:V.
  - destruct (decode_vin_valid vin0 V) as (yc & pc & _ & _ & E').
    rewrite E' in D. injection D as <-. cbn [is_valid vehicle_type].
    split; [reflexivity|].
    destruct (_determine_vehicle_type_cases (upper vin0)) as [-> _].
    destruct (startswith (upper vin0) (lit "KM8R54HE")).
    + change (contains (lit "Palisade") (lit "Palisade SUV")) with true.
      cbv iota. split; [auto|]. intros _. apply insert_non_empty.
    + assert (C : contains (lit "Palisade")
                    (if startswith (upper vin0) (lit "KM8")
                     then lit "Hyundai Vehicle"
                     else lit "Unknown Vehicle Type") = false)
        by (destruct (startswith (upper vin0) (lit "KM8")); reflexivity).
      rewrite C. split; [congruence|]. intros [_ H]. discriminate H.
  - rewrite (decode_vin_invalid vin0 V) in D. injection D as <-.
    cbn [is_valid vehicle_type]. split; [reflexivity|].
    change (contains (lit "Palisade") (lit "")) with false. cbv iota.
    split; [congruence|]. intros [H _]. discriminate H.
Qed.

(** X11: the forensic notes are cut from the input as given, the decoded
    fields from its upper-cased form. For an ASCII input that [validate_vin]
    accepts they agree up to case: upper-casing the WMI code, the plant code
    and the serial number of the notes gives the first three characters of
    the decoded [vin], the decoded plant code and the decoded [vin] from
    index 11 on; the serial number has six characters. *)
Theorem forensic_notes_up_to_case (vin0 : str) :
  is_ascii vin0 ->
  fst (validate_vin vin0) = true ->
  exists r s,
    decode_vin vin0 = Ok r /\
    get_forensic_summary vin0 = Ok s /\
    upper (wmi_code (forensic_notes s)) = take 3 (vin r) /\
    upper (notes_plant_code (forensic_notes s)) = plant_code r /\
    upper (serial_number (forensic_notes s)) = drop 11 (vin r) /\
    length (serial_number (forensic_notes s)) = 6%nat.
Proof.
  intros A V.
  destruct (get_forensic_summary_eq vin0) as (r & D & E).
  exists r. eexists. split; [exact D|]. split; [exact E|].
  cbn [forensic_notes wmi_code notes_plant_code serial_number].
  destruct (decode_vin_valid vin0 V) as (yc & pc & _ & Hp & E').
  rewrite E' in D. injection D as <-. cbn [vin plant_code].
  pose proof V as V'. rewrite validate_vin_fst in V'.
  apply andb_prop in V' as [L _]. apply Nat.eqb_eq in L.
  rewrite L. cbn [Nat.leb].
  assert (At : forall n, is_ascii (take n vin0)) by (intros; apply Forall_take, A).
  assert (Ad : forall n, is_ascii (drop n vin0)) by (intros; apply Forall_drop, A).
  rewrite (upper_ascii vin0 A) in *.
  rewrite (upper_ascii _ (At 3%nat)).
  rewrite (upper_ascii _ (Ad 11%nat)).
  rewrite (upper_ascii (take 1 (drop 10 vin0)))
    by (apply Forall_take, Ad).
  rewrite <- !firstn_map, <- !skipn_map.
  split; [reflexivity|]. split.
  - rewrite (drop_S _ pc 10 Hp). reflexivity.
  - split; [reflexivity|]. rewrite length_drop, L. reflexivity.
Qed.

Lemma forensic_notes_up_to_case_witness :
  exists r s,
    decode_vin palisade = Ok r /\
    get_forensic_summary palisade = Ok s /\
    upper (wmi_code (forensic_notes s)) = take 3 (vin r) /\
    upper (notes_plant_code (forensic_notes s)) = plant_code r /\
    upper (serial_number (forensic_notes s)) = drop 11 (vin r) /\
    length (serial_number (forensic_notes s)) = 6%nat.
Proof.
  apply (forensic_notes_up_to_case palisade palisade_ascii). reflexivity.
Defined.
